(** * umbra-js/src/utils/ens.ts: helpers for the Ethereum Name Service

    The file is a thin client over a resolver contract.  Its functions
    normalise and hash a domain, build a contract handle and forward one
    text-record read or write.  The embedding keeps that shape: the code
    is a small program over external calls ([prog]), and the resolver,
    the normaliser and the key-recovery helper are interfaces. *)

From Stdlib Require Import Ascii String.
From stdpp Require Import gmap strings list pretty.

Open Scope string_scope.

(** ** JavaScript values *)

(** The values a text-record read can hand back ([text] is untyped in
    the source, so [getSignature] returns [any]). *)
Inductive value : Type :=
| VUndefined
| VNull
| VBool (b : bool)
| VNumber (n : Z)
| VString (s : string).

(** JavaScript truthiness: [undefined], [null], [false], [0] and the
    empty string are falsy.  Numbers are kept to the integers, so [NaN]
    has no counterpart here. *)
Definition truthy (v : value) : bool :=
  match v with
  | VUndefined => false
  | VNull => false
  | VBool b => b
  | VNumber n => negb (Z.eqb n 0)
  | VString s => negb (String.eqb s "")
  end.

(** The prefix operator [!v]. *)
Definition js_not (v : value) : bool := negb (truthy v).

(** ** Outcomes of fallible calls *)

(** What a [throw] (or a rejected promise) carries. *)
Definition Error : Type := string.

Inductive Outcome (A : Type) : Type :=
| Ok (a : A)
| Throw (e : Error).
Arguments Ok {A} a.
Arguments Throw {A} e.

Definition outcome_bind {A B} (o : Outcome A) (f : A -> Outcome B) : Outcome B :=
  match o with
  | Ok a => f a
  | Throw e => Throw e
  end.

(** ** The collaborators of ens.ts

    Everything the file [require]s: the eth-ens-namehash package, the
    constants, the resolver ABI and [createContract].  None of them is
    defined in ens.ts, so they are the fields of an interface. *)
Class Externals : Type := {
  ExternalProvider : Type;
  Abi : Type;
  Contract : Type;
  TransactionResponse : Type;
  (** [ensNamehash.normalize]; raises on a malformed domain. *)
  ensNamehash_normalize : string -> Outcome string;
  (** [ensNamehash.hash] *)
  ensNamehash_hash : string -> string;
  (** [constants.ENS_PUBLIC_RESOLVER] *)
  ENS_PUBLIC_RESOLVER : string;
  (** [require('../abi/PublicResolver.json')] *)
  publicResolverAbi : Abi;
  (** [createContract(address, abi, provider)] *)
  createContract : string -> Abi -> ExternalProvider -> Outcome Contract;
  (** [tx.hash] *)
  tx_hash : TransactionResponse -> string
}.

Section Ens.
Context `{Externals}.

(** ** External calls

    The asynchronous calls the file awaits: the two resolver methods,
    [tx.wait()] and the key-recovery helper of ./utils. *)
Inductive ExtCall : Type :=
| text (c : Contract) (node key : string)
| setText (c : Contract) (node key val : string)
| wait (tx : TransactionResponse)
| getPublicKeyFromSignature (signature : value).

(** What the awaited promise resolves to. *)
Definition resp (c : ExtCall) : Type :=
  match c with
  | text _ _ _ => value
  | setText _ _ _ _ => TransactionResponse
  | wait _ => unit
  | getPublicKeyFromSignature _ => value
  end.

(** ** Programs

    An [async] function body: it returns, it throws, or it awaits an
    external call and goes on with what the call resolved to.  There is no
    constructor for catching: ens.ts has no [try]. *)
Inductive prog (A : Type) : Type :=
| Ret (a : A)
| Raise (e : Error)
| Await (c : ExtCall) (k : resp c -> prog A).
Arguments Ret {A} a.
Arguments Raise {A} e.
Arguments Await {A} c k.

Fixpoint bind {A B} (p : prog A) (f : A -> prog B) : prog B :=
  match p with
  | Ret a => f a
  | Raise e => Raise e
  | Await c k => Await c (fun x => bind (k x) f)
  end.

(** A synchronous, fallible call made inside an [async] body. *)
Definition lift {A} (o : Outcome A) : prog A :=
  match o with
  | Ok a => Ret a
  | Throw e => Raise e
  end.

(** [await c] *)
Definition await (c : ExtCall) : prog (resp c) := Await c Ret.

Notation "'let*' x ':=' e 'in' k" := (bind e (fun x => k))
  (at level 10, x name, e at level 100, k at level 200, only parsing).

(** ** Running a program against a transport

    A handler answers each external call from the state of the outside
    world (the chain behind the provider) and may change that state.
    [run] threads the state, stops at the first failure and records the
    calls that were issued, in order. *)
Definition handler (W : Type) : Type :=
  forall c : ExtCall, W -> Outcome (resp c) * W.

Record result (W A : Type) : Type := mkResult {
  outcome : Outcome A;
  final : W;
  calls : list ExtCall
}.
Arguments mkResult {W A} _ _ _.
Arguments outcome {W A} _.
Arguments final {W A} _.
Arguments calls {W A} _.

Fixpoint run {W A} (h : handler W) (p : prog A) (w : W) : result W A :=
  match p with
  | Ret a => mkResult (Ok a) w []
  | Raise e => mkResult (Throw e) w []
  | Await c k =>
      match h c w with
      | (Ok x, w') =>
          let r := run h (k x) w' in
          mkResult (outcome r) (final r) (c :: calls r)
      | (Throw e, w') => mkResult (Throw e) w' [c]
      end
  end.

(** ** ens.ts *)

Definition umbraKeySignature : string := "vnd.umbra-v0-signature".
Definition umbraKeyBytecode : string := "vnd.umbra-v0-bytecode".

(** [ensNamehash.hash(ensNamehash.normalize(name))] *)
Definition namehash (name : string) : Outcome string :=
  outcome_bind (ensNamehash_normalize name) (fun normalized =>
  Ok (ensNamehash_hash normalized)).

(** The argument [namehash(name)] is evaluated before [text] is called. *)
Definition getSignature (name : string) (provider : ExternalProvider) : prog value :=
  let* publicResolver := lift (createContract ENS_PUBLIC_RESOLVER publicResolverAbi provider) in
  let* node := lift (namehash name) in
  let* signature := await (text publicResolver node umbraKeySignature) in
  Ret signature.

Definition getPublicKey (name : string) (provider : ExternalProvider) : prog value :=
  let* signature := getSignature name provider in
  if js_not signature then Ret VUndefined
  else
    let* publicKey := await (getPublicKeyFromSignature signature) in
    Ret publicKey.

Definition getBytecode (name : string) (provider : ExternalProvider) : prog value :=
  let* publicResolver := lift (createContract ENS_PUBLIC_RESOLVER publicResolverAbi provider) in
  let* node := lift (namehash name) in
  let* bytecode := await (text publicResolver node umbraKeyBytecode) in
  Ret bytecode.

Definition setSignature (name : string) (provider : ExternalProvider)
    (signature : string) : prog string :=
  let* publicResolver := lift (createContract ENS_PUBLIC_RESOLVER publicResolverAbi provider) in
  let* node := lift (namehash name) in
  let* tx := await (setText publicResolver node umbraKeySignature signature) in
  let* _ := await (wait tx) in
  Ret (tx_hash tx).

End Ens.

Arguments Ret {_ A} a.
Arguments Raise {_ A} e.
Arguments Await {_ A} c k.
Arguments mkResult {_ W A} _ _ _.
Arguments outcome {_ W A} _.
Arguments final {_ W A} _.
Arguments calls {_ W A} _.

(** ** Reading the call log *)

Section Log.
Context `{Externals}.

(** A resolver read: [publicResolver.text]. *)
Definition is_read (c : ExtCall) : bool :=
  match c with text _ _ _ => true | _ => false end.

(** A resolver write: [publicResolver.setText]. *)
Definition is_write (c : ExtCall) : bool :=
  match c with setText _ _ _ _ => true | _ => false end.

(** A call of the key-recovery helper. *)
Definition is_recovery (c : ExtCall) : bool :=
  match c with getPublicKeyFromSignature _ => true | _ => false end.

Definition count_calls (f : ExtCall -> bool) (l : list ExtCall) : nat :=
  length (List.filter f l).

(** The contract, identifier and text-record key a resolver call is
    addressed to. *)
Definition record_key (c : ExtCall) : option (Contract * string * string) :=
  match c with
  | text r node key => Some (r, node, key)
  | setText r node key _ => Some (r, node, key)
  | _ => None
  end.

(** What a read hands back for a stored record, and for none. *)
Definition stored (o : option string) : value :=
  match o with
  | Some s => VString s
  | None => VUndefined
  end.

(** Modelled from the spec: the PublicResolver contract that
    [createContract] (../inner/contract, ../abi/PublicResolver.json)
    gives access to is not part of ens.ts.  The spec describes it as a
    "contract holding text records keyed by identifier and record name"
    and says that "absence of a stored record is signaled as an absent
    result, not an error".  [record w c node key] is the text record the
    resolver behind the handle [c] holds in the state [w].  A read that
    is answered hands back the stored record, [undefined] for none; an
    accepted write stores its value; no write touches a record under
    another identifier or key; waiting for a transaction changes no
    record. *)
Class ResolverStore {W : Type} (h : handler W)
    (record : W -> Contract -> string -> string -> option string) : Prop := {
  text_answer : forall c node key w v,
    (h (text c node key) w).1 = Ok v -> v = stored (record w c node key);
  setText_stores : forall c node key val w tx w',
    h (setText c node key val) w = (Ok tx, w') ->
    record w' c node key = Some val;
  setText_frame : forall c node key val w n k,
    (n, k) <> (node, key) ->
    record (h (setText c node key val) w).2 c n k = record w c n k;
  wait_frame : forall tx w c n k,
    record (h (wait tx) w).2 c n k = record w c n k
}.

(** Whether a call for [name] through [provider] gets as far as the
    resolver: the contract handle is built and the domain normalises. *)
Definition reaches_resolver (name : string) (provider : ExternalProvider) : bool :=
  match createContract ENS_PUBLIC_RESOLVER publicResolverAbi provider with
  | Throw _ => false
  | Ok _ => match namehash name with Throw _ => false | Ok _ => true end
  end.

(** One awaited resolver read under [key]: the common shape of
    [getSignature] and [getBytecode], written out step by step. *)
Definition read_record {W : Type} (h : handler W) (key name : string)
    (provider : ExternalProvider) (w : W) : result W value :=
  match createContract ENS_PUBLIC_RESOLVER publicResolverAbi provider with
  | Throw e => mkResult (Throw e) w []
  | Ok c =>
      match namehash name with
      | Throw e => mkResult (Throw e) w []
      | Ok node =>
          mkResult (h (text c node key) w).1 (h (text c node key) w).2 [text c node key]
      end
  end.

End Log.

(** ** Capitalisations of a domain *)

Definition lower_ascii (a : ascii) : ascii :=
  let n := nat_of_ascii a in
  if Nat.leb 65 n && Nat.leb n 90 then ascii_of_nat (n + 32) else a.

Definition upper_ascii (a : ascii) : ascii :=
  let n := nat_of_ascii a in
  if Nat.leb 97 n && Nat.leb n 122 then ascii_of_nat (n - 32) else a.

(** The letters A-Z folded to a-z; every other byte is kept.  This is
    not [String.prototype.toLowerCase], which also maps letters outside
    ASCII. *)
Fixpoint asciiLowerCase (s : string) : string :=
  match s with
  | EmptyString => EmptyString
  | String a s' => String (lower_ascii a) (asciiLowerCase s')
  end.

(** The letters a-z raised to A-Z; every other byte is kept.  This is
    not [String.prototype.toUpperCase], which also maps letters outside
    ASCII. *)
Fixpoint asciiUpperCase (s : string) : string :=
  match s with
  | EmptyString => EmptyString
  | String a s' => String (upper_ascii a) (asciiUpperCase s')
  end.

(** Two spellings of one domain: they differ in the case of ASCII
    letters only. *)
Definition same_domain (s t : string) : Prop := asciiLowerCase s = asciiLowerCase t.

(** A name made of ASCII characters only (bytes below 128). *)
Fixpoint ascii_only (s : string) : bool :=
  match s with
  | EmptyString => true
  | String a s' => Nat.ltb (nat_of_ascii a) 128 && ascii_only s'
  end.

(** [String.prototype.toUpperCase] on UTF-8 text, for the characters
    whose mapping is written out here: the ASCII characters (a-z go to
    A-Z) and the letter sharp s, U+00DF, bytes 195 159, which JavaScript
    upper-cases to the two letters SS.  A name with any other character
    is outside this table and gets [None]. *)
Fixpoint toUpperCase (s : string) : option string :=
  match s with
  | EmptyString => Some EmptyString
  | String a s' =>
      if Nat.ltb (nat_of_ascii a) 128
      then option_map (String (upper_ascii a)) (toUpperCase s')
      else
        match s' with
        | String b s'' =>
            if Nat.eqb (nat_of_ascii a) 195 && Nat.eqb (nat_of_ascii b) 159
            then option_map (fun r => String "S" (String "S" r)) (toUpperCase s'')
            else None
        | EmptyString => None
        end
  end.

(** [String.prototype.toLowerCase] on UTF-8 text, for the same
    characters: A-Z go to a-z, and sharp s, being lower case, is kept. *)
Fixpoint toLowerCase (s : string) : option string :=
  match s with
  | EmptyString => Some EmptyString
  | String a s' =>
      if Nat.ltb (nat_of_ascii a) 128
      then option_map (String (lower_ascii a)) (toLowerCase s')
      else
        match s' with
        | String b s'' =>
            if Nat.eqb (nat_of_ascii a) 195 && Nat.eqb (nat_of_ascii b) 159
            then option_map (fun r => String a (String b r)) (toLowerCase s'')
            else None
        | EmptyString => None
        end
  end.

(** Modelled from the spec: [ensNamehash.normalize] (package
    eth-ens-namehash) is not part of ens.ts.  The spec calls the routine
    "case/format-normalizing": the case of the ASCII letters of its
    input does not matter, neither for the normalised name nor for a
    rejection. *)
Class CaseNormalizing `{Externals} : Prop :=
  normalize_case : forall s, ensNamehash_normalize s = ensNamehash_normalize (asciiLowerCase s).

(** ** A small resolver to run the code against *)

Module Model.

(** The characters a label may hold under the STD3 rules: letters,
    digits and the hyphen; the dot separates labels.  Bytes above 127
    are left to the Unicode tables, which are not modelled. *)
Definition std3_char (a : ascii) : bool :=
  let n := nat_of_ascii a in
  (Nat.leb 97 n && Nat.leb n 122) || (Nat.leb 65 n && Nat.leb n 90)
  || (Nat.leb 48 n && Nat.leb n 57) || Nat.eqb n 45 || Nat.eqb n 46
  || Nat.leb 128 n.

Fixpoint std3 (s : string) : bool :=
  match s with
  | EmptyString => true
  | String a s' => std3_char a && std3 s'
  end.

(** Modelled from the spec: a stand-in for [ensNamehash.normalize], which
    is not part of ens.ts.  It folds the letter case ("case-normalizing")
    and raises on a malformed domain (spec, section 7), here a name with
    a character the STD3 rules exclude. *)
Definition normalize (name : string) : Outcome string :=
  if std3 name then Ok (asciiLowerCase name) else Throw "Illegal char".

(** Modelled from the spec: a stand-in for [ensNamehash.hash], which is
    not part of ens.ts: "a deterministic hash of a normalized domain
    string".  It is injective; it is not keccak. *)
Definition hash (normalized : string) : string := "node:" +:+ normalized.

(** The chain behind the provider: the text records of each resolver,
    whether the node answers, and how many transactions were sent. *)
Record world : Type := mkWorld {
  texts : gmap (string * string * string) string;
  online : bool;
  sent : nat
}.

#[local] Instance externals : Externals := {|
  ExternalProvider := unit;
  Abi := unit;
  Contract := string;
  TransactionResponse := string;
  ensNamehash_normalize := normalize;
  ensNamehash_hash := hash;
  ENS_PUBLIC_RESOLVER := "0xResolver";
  publicResolverAbi := tt;
  createContract := fun address _ _ => Ok address;
  tx_hash := fun tx => tx
|}.

(** Modelled from the spec: [getPublicKeyFromSignature] (./utils) is not
    part of ens.ts; the spec only calls it "an external key-recovery
    helper".  This stand-in recovers a key from every non-empty string
    and raises on anything else. *)
Definition recover (signature : value) : Outcome value :=
  match signature with
  | VString s => if String.eqb s "" then Throw "invalid signature" else Ok (VString ("pk:" +:+ s))
  | _ => Throw "invalid signature"
  end.

(** Modelled from the spec: the resolver and the transport are not part
    of ens.ts.  This one is a "contract holding text records keyed by
    identifier and record name": a read looks the record up, a write
    stores it and hands back a transaction, and every call raises while
    the node is unreachable. *)
Definition transport : handler world :=
  fun c =>
    match c as c0 return world -> Outcome (resp c0) * world with
    | text r node key => fun w =>
        if online w then (Ok (stored (texts w !! (r, node, key))), w)
        else (Throw "network error", w)
    | setText r node key val => fun w =>
        if online w
        then (Ok ("0xtx" +:+ pretty (sent w)),
              mkWorld (<[(r, node, key) := val]> (texts w)) (online w) (S (sent w)))
        else (Throw "network error", w)
    | wait tx => fun w =>
        if online w then (Ok tt, w) else (Throw "network error", w)
    | getPublicKeyFromSignature signature => fun w => (recover signature, w)
    end.

(** The record the resolver [c] holds under [node] and [key]. *)
Definition record (w : world) (c node key : string) : option string :=
  texts w !! (c, node, key).

(** An empty chain. *)
Definition genesis : world := mkWorld ∅ true 0.

Definition provider : unit := tt.

(** The domain made of the letter sharp s (U+00DF, bytes 195 159 in
    UTF-8) and the suffix .eth. *)
Definition sharp_s_eth : string :=
  String (ascii_of_nat 195) (String (ascii_of_nat 159) ".eth").

(** A chain where alice.eth has a bytecode record. *)
Definition with_bytecode : world :=
  mkWorld {[ ("0xResolver", "node:alice.eth", "vnd.umbra-v0-bytecode") := "0x6080" ]} true 0.

(** A chain where the signature record of alice.eth is 0x1234. *)
Definition with_signature : world :=
  mkWorld {[ ("0xResolver", "node:alice.eth", "vnd.umbra-v0-signature") := "0x1234" ]} true 1.

(** A chain where the signature record of alice.eth is the empty string. *)
Definition with_empty_signature : world :=
  mkWorld {[ ("0xResolver", "node:alice.eth", "vnd.umbra-v0-signature") := "" ]} true 1.

End Model.

(** * Facts about the monad *)

Section RunFacts.
Context `{Externals} {W : Type} (h : handler W).

(** Running [bind p f]: [p] first; [f] only when [p] returned. *)
Lemma run_bind {A B} (p : prog A) (f : A -> prog B) (w : W) :
  run h (bind p f) w =
  let r := run h p w in
  match outcome r with
  | Ok a =>
      let r' := run h (f a) (final r) in
      mkResult (outcome r') (final r') (calls r ++ calls r')
  | Throw e => mkResult (Throw e) (final r) (calls r)
  end.
Proof.
  revert w. induction p as [a | e | c k IH]; intros w; simpl.
  - by destruct (run h (f a) w).
  - done.
  - destruct (h c w) as [[x | e] w']; simpl; [| done].
    rewrite IH. simpl. by destruct (outcome (run h (k x) w')).
Qed.

Lemma run_lift {A} (o : Outcome A) (w : W) :
  run h (lift o) w = mkResult o w [].
Proof. by destruct o. Qed.

Lemma run_await (c : ExtCall) (w : W) :
  run h (await c) w = mkResult (h c w).1 (h c w).2 [c].
Proof. unfold await. simpl. by destruct (h c w) as [[x | e] w']. Qed.

(** ** What each function of ens.ts does, step by step *)

Lemma getSignature_run name provider w :
  run h (getSignature name provider) w = read_record h umbraKeySignature name provider w.
Proof.
  unfold getSignature, read_record.
  destruct (createContract _ _ _) as [c | e]; simpl; [| done].
  destruct (namehash name) as [node | e]; simpl; [| done].
  by destruct (h _ w) as [[v | e] w'].
Qed.

Lemma getBytecode_run name provider w :
  run h (getBytecode name provider) w = read_record h umbraKeyBytecode name provider w.
Proof.
  unfold getBytecode, read_record.
  destruct (createContract _ _ _) as [c | e]; simpl; [| done].
  destruct (namehash name) as [node | e]; simpl; [| done].
  by destruct (h _ w) as [[v | e] w'].
Qed.

Lemma getPublicKey_run name provider w :
  run h (getPublicKey name provider) w =
  let s := run h (getSignature name provider) w in
  match outcome s with
  | Throw e => mkResult (Throw e) (final s) (calls s)
  | Ok signature =>
      if truthy signature
      then
        let q := h (getPublicKeyFromSignature signature) (final s) in
        mkResult q.1 q.2 (calls s ++ [getPublicKeyFromSignature signature])
      else mkResult (Ok VUndefined) (final s) (calls s ++ [])
  end.
Proof.
  unfold getPublicKey. rewrite run_bind. simpl.
  destruct (outcome (run h (getSignature name provider) w)) as [v | e]; [| done].
  unfold js_not. destruct (truthy v); simpl; [| done].
  by destruct (h _ _) as [[pk | e] w'].
Qed.

Lemma setSignature_run name provider signature w :
  run h (setSignature name provider signature) w =
  match createContract ENS_PUBLIC_RESOLVER publicResolverAbi provider with
  | Throw e => mkResult (Throw e) w []
  | Ok c =>
      match namehash name with
      | Throw e => mkResult (Throw e) w []
      | Ok node =>
          let write := setText c node umbraKeySignature signature in
          match h write w with
          | (Throw e, w1) => mkResult (Throw e) w1 [write]
          | (Ok tx, w1) =>
              match h (wait tx) w1 with
              | (Throw e, w2) => mkResult (Throw e) w2 [write; wait tx]
              | (Ok _, w2) => mkResult (Ok (tx_hash tx)) w2 [write; wait tx]
              end
          end
      end
  end.
Proof.
  unfold setSignature.
  destruct (createContract _ _ _) as [c | e]; simpl; [| done].
  destruct (namehash name) as [node | e]; simpl; [| done].
  destruct (h _ w) as [[tx | e] w1]; simpl; [| done].
  by destruct (h (wait tx) w1) as [[u | e] w2].
Qed.

End RunFacts.

(** * The functions of ens.ts against any transport *)

Section EnsFacts.
Context `{Externals} {W : Type} (h : handler W).

Lemma read_record_outcome key name provider w c node :
  createContract ENS_PUBLIC_RESOLVER publicResolverAbi provider = Ok c ->
  namehash name = Ok node ->
  read_record h key name provider w =
  mkResult (h (text c node key) w).1 (h (text c node key) w).2 [text c node key].
Proof. intros Hc Hn. unfold read_record. by rewrite Hc, Hn. Qed.

Lemma read_record_calls key name provider w :
  calls (read_record h key name provider w) = [] \/
  exists c node,
    createContract ENS_PUBLIC_RESOLVER publicResolverAbi provider = Ok c /\
    namehash name = Ok node /\
    calls (read_record h key name provider w) = [text c node key].
Proof.
  unfold read_record.
  destruct (createContract _ _ _) as [c | e]; [| by left].
  destruct (namehash name) as [node | e]; [| by left].
  right. by exists c, node.
Qed.

Lemma read_record_reads key name provider w :
  count_calls is_read (calls (read_record h key name provider w)) =
    (if reaches_resolver name provider then 1 else 0) /\
  count_calls is_write (calls (read_record h key name provider w)) = 0 /\
  count_calls is_recovery (calls (read_record h key name provider w)) = 0.
Proof.
  unfold read_record, reaches_resolver.
  destruct (createContract _ _ _) as [c | e]; [| done].
  by destruct (namehash name) as [node | e].
Qed.

Lemma read_record_throws key name provider w e :
  outcome (read_record h key name provider w) = Throw e <->
  createContract ENS_PUBLIC_RESOLVER publicResolverAbi provider = Throw e \/
  exists c, createContract ENS_PUBLIC_RESOLVER publicResolverAbi provider = Ok c /\
    (namehash name = Throw e \/
     exists node, namehash name = Ok node /\ (h (text c node key) w).1 = Throw e).
Proof.
  unfold read_record.
  destruct (createContract _ _ _) as [c | e0]; simpl.
  - destruct (namehash name) as [node | e1]; simpl.
    + split.
      * intros Hr. right. exists c. split; [done |]. right. by exists node.
      * intros [Hc | (c' & Hc & [Hn | (node' & Hn & Hr)])];
          [discriminate Hc | discriminate Hn |].
        injection Hc as <-. injection Hn as <-. exact Hr.
    + split.
      * intros Hr. right. exists c. split; [done |]. left. by injection Hr as ->.
      * intros [Hc | (c' & Hc & [Hn | (node' & Hn & Hr)])];
          [discriminate Hc | by injection Hn as -> | discriminate Hn].
  - split.
    + intros Hr. left. by injection Hr as ->.
    + intros [Hc | (c' & Hc & _)]; [by injection Hc as -> | discriminate Hc].
Qed.

(** The calls of [setSignature]: the write under the signature key and,
    when it was accepted, the wait for its transaction. *)
Lemma setSignature_calls_keyed name provider signature w :
  Forall (fun x => exists c node,
            createContract ENS_PUBLIC_RESOLVER publicResolverAbi provider = Ok c /\
            namehash name = Ok node /\
            (x = setText c node umbraKeySignature signature \/ exists tx, x = wait tx))
         (calls (run h (setSignature name provider signature) w)).
Proof.
  rewrite setSignature_run.
  destruct (createContract _ _ _) as [c | e]; [| by constructor].
  destruct (namehash name) as [node | e]; [| by constructor].
  simpl. destruct (h _ w) as [[tx | e] w1].
  - destruct (h (wait tx) w1) as [[u | e] w2];
      repeat constructor; exists c, node; eauto.
  - repeat constructor; exists c, node; eauto.
Qed.

(** C2 (as amended): when [getSignature] returns a falsy value
    ([undefined], [null], [false], [0] or the empty string), [getPublicKey]
    returns [undefined]; in particular it does so when [getSignature]
    returns [undefined].  When [getSignature] returns a truthy value,
    [getPublicKey] returns what [getPublicKeyFromSignature] answers for
    that very value.  When [getSignature] raises, [getPublicKey] raises
    the same error. *)
Theorem getPublicKey_follows_getSignature name provider w :
  let s := run h (getSignature name provider) w in
  let p := run h (getPublicKey name provider) w in
  match outcome s with
  | Throw e => outcome p = Throw e
  | Ok signature =>
      if truthy signature
      then outcome p = (h (getPublicKeyFromSignature signature) (final s)).1
      else outcome p = Ok VUndefined
  end /\
  (outcome s = Ok VUndefined -> outcome p = Ok VUndefined).
Proof.
  simpl. rewrite getPublicKey_run. simpl.
  destruct (outcome (run h (getSignature name provider) w)) as [v | e] eqn:Hs.
  - split.
    + by destruct (truthy v).
    + intros Hv. by simplify_eq.
  - done.
Qed.

(** C5: every call that [getSignature] issues is the resolver read
    [text(namehash(name), 'vnd.umbra-v0-signature')], every call that
    [getBytecode] issues is the read
    [text(namehash(name), 'vnd.umbra-v0-bytecode')], and every call that
    [setSignature] issues is the write
    [setText(namehash(name), 'vnd.umbra-v0-signature', signature)] or the
    wait for a transaction; all on the contract built for
    [ENS_PUBLIC_RESOLVER].  No other key or identifier occurs. *)
Theorem resolver_calls_keyed name provider signature w :
  umbraKeySignature = "vnd.umbra-v0-signature" /\
  umbraKeyBytecode = "vnd.umbra-v0-bytecode" /\
  Forall (fun x => exists c node,
            createContract ENS_PUBLIC_RESOLVER publicResolverAbi provider = Ok c /\
            namehash name = Ok node /\
            x = text c node umbraKeySignature)
         (calls (run h (getSignature name provider) w)) /\
  Forall (fun x => exists c node,
            createContract ENS_PUBLIC_RESOLVER publicResolverAbi provider = Ok c /\
            namehash name = Ok node /\
            x = text c node umbraKeyBytecode)
         (calls (run h (getBytecode name provider) w)) /\
  Forall (fun x => exists c node,
            createContract ENS_PUBLIC_RESOLVER publicResolverAbi provider = Ok c /\
            namehash name = Ok node /\
            (x = setText c node umbraKeySignature signature \/ exists tx, x = wait tx))
         (calls (run h (setSignature name provider signature) w)).
Proof.
  split; [done |]. split; [done |].
  split; [| split; [| apply setSignature_calls_keyed]].
  - rewrite getSignature_run.
    destruct (read_record_calls umbraKeySignature name provider w)
      as [-> | (c & node & Hc & Hn & ->)]; repeat constructor.
    by exists c, node.
  - rewrite getBytecode_run.
    destruct (read_record_calls umbraKeyBytecode name provider w)
      as [-> | (c & node & Hc & Hn & ->)]; repeat constructor.
    by exists c, node.
Qed.

(** C6: when the contract is built, the domain normalises, the write is
    accepted with the transaction [tx] and the wait for [tx] succeeds,
    [setSignature] returns [tx.hash], having issued the write and then
    the wait.  It returns no hash when the wait fails; and whenever it
    returns, the wait for the transaction of its write was issued and
    answered before. *)
Theorem setSignature_returns_hash name provider signature w c node tx w1 :
  createContract ENS_PUBLIC_RESOLVER publicResolverAbi provider = Ok c ->
  namehash name = Ok node ->
  h (setText c node umbraKeySignature signature) w = (Ok tx, w1) ->
  (forall w2, h (wait tx) w1 = (Ok tt, w2) ->
     run h (setSignature name provider signature) w =
     mkResult (Ok (tx_hash tx)) w2
       [setText c node umbraKeySignature signature; wait tx]) /\
  (forall e w2, h (wait tx) w1 = (Throw e, w2) ->
     outcome (run h (setSignature name provider signature) w) = Throw e) /\
  (forall txh, outcome (run h (setSignature name provider signature) w) = Ok txh ->
     txh = tx_hash tx /\
     (h (wait tx) w1).1 = Ok tt /\
     calls (run h (setSignature name provider signature) w) =
       [setText c node umbraKeySignature signature; wait tx]).
Proof.
  intros Hc Hn Hw. rewrite setSignature_run, Hc, Hn. simpl. rewrite Hw.
  repeat split.
  - intros w2 Hwait. by rewrite Hwait.
  - intros e w2 Hwait. by rewrite Hwait.
  - destruct (h (wait tx) w1) as [[u | e] w2]; simpl in *; congruence.
  - destruct (h (wait tx) w1) as [[[] | e] w2]; simpl in *; [done | congruence].
  - destruct (h (wait tx) w1) as [[u | e] w2]; simpl in *; [done | congruence].
Qed.

Lemma count_calls_app (f : ExtCall -> bool) (l1 l2 : list ExtCall) :
  count_calls f (l1 ++ l2) = count_calls f l1 + count_calls f l2.
Proof. unfold count_calls. by rewrite List.filter_app, length_app. Qed.

(** C7: no function of ens.ts catches or rewrites an error.  [namehash]
    raises [e] exactly when the normaliser raises [e]; each asynchronous
    function raises [e] exactly when the first collaborator that fails on
    its path ([createContract], [namehash], the resolver call, the wait
    or the key-recovery helper) raises that same [e]. *)
Theorem failures_propagate_unchanged name provider signature w e :
  (namehash name = Throw e <-> ensNamehash_normalize name = Throw e) /\
  (outcome (run h (getSignature name provider) w) = Throw e <->
   createContract ENS_PUBLIC_RESOLVER publicResolverAbi provider = Throw e \/
   exists c, createContract ENS_PUBLIC_RESOLVER publicResolverAbi provider = Ok c /\
     (namehash name = Throw e \/
      exists node, namehash name = Ok node /\
        (h (text c node umbraKeySignature) w).1 = Throw e)) /\
  (outcome (run h (getBytecode name provider) w) = Throw e <->
   createContract ENS_PUBLIC_RESOLVER publicResolverAbi provider = Throw e \/
   exists c, createContract ENS_PUBLIC_RESOLVER publicResolverAbi provider = Ok c /\
     (namehash name = Throw e \/
      exists node, namehash name = Ok node /\
        (h (text c node umbraKeyBytecode) w).1 = Throw e)) /\
  (outcome (run h (getPublicKey name provider) w) = Throw e <->
   outcome (run h (getSignature name provider) w) = Throw e \/
   exists sig, outcome (run h (getSignature name provider) w) = Ok sig /\
     truthy sig = true /\
     (h (getPublicKeyFromSignature sig)
        (final (run h (getSignature name provider) w))).1 = Throw e) /\
  (outcome (run h (setSignature name provider signature) w) = Throw e <->
   createContract ENS_PUBLIC_RESOLVER publicResolverAbi provider = Throw e \/
   exists c, createContract ENS_PUBLIC_RESOLVER publicResolverAbi provider = Ok c /\
     (namehash name = Throw e \/
      exists node, namehash name = Ok node /\
        ((h (setText c node umbraKeySignature signature) w).1 = Throw e \/
         exists tx, (h (setText c node umbraKeySignature signature) w).1 = Ok tx /\
           (h (wait tx) (h (setText c node umbraKeySignature signature) w).2).1
             = Throw e))).
Proof.
  split; [| split; [| split; [| split]]].
  - unfold namehash. by destruct (ensNamehash_normalize name).
  - rewrite getSignature_run. apply read_record_throws.
  - rewrite getBytecode_run. apply read_record_throws.
  - rewrite getPublicKey_run. simpl.
    destruct (outcome (run h (getSignature name provider) w)) as [v | e0] eqn:Hs.
    + destruct (truthy v) eqn:Hv; simpl.
      * split.
        -- intros Hr. right. by exists v.
        -- intros [Hs' | (v' & Hs' & _ & Hr)]; [discriminate Hs' |].
           by injection Hs' as <-.
      * split; [discriminate |].
        intros [Hs' | (v' & Hs' & Hv' & _)]; [discriminate Hs' |].
        injection Hs' as <-. congruence.
    + simpl. split.
      * intros Hr. by left.
      * intros [Hs' | (v' & Hs' & _)]; [exact Hs' | discriminate Hs'].
  - rewrite setSignature_run.
    destruct (createContract _ _ _) as [c | e0]; simpl.
    2:{ split.
        - intros Hr. left. by injection Hr as ->.
        - intros [Hc | (c' & Hc & _)]; [by injection Hc as -> | discriminate Hc]. }
    destruct (namehash name) as [node | e1]; simpl.
    2:{ split.
        - intros Hr. right. exists c. split; [done |]. left. by injection Hr as ->.
        - intros [Hc | (c' & Hc & [Hn | (node' & Hn & _)])];
            [discriminate Hc | by injection Hn as -> | discriminate Hn]. }
    split.
    + intros Hr. right. exists c. split; [done |]. right. exists node. split; [done |].
      destruct (h (setText c node umbraKeySignature signature) w) as [[tx | e2] w1];
        simpl in *.
      * right. exists tx. split; [done |].
        destruct (h (wait tx) w1) as [[u | e3] w2]; simpl in *;
          [discriminate Hr | by injection Hr as ->].
      * left. by injection Hr as ->.
    + intros [Hc | (c' & Hc & [Hn | (node' & Hn & Hr)])];
        [discriminate Hc | discriminate Hn |].
      injection Hc as <-. injection Hn as <-.
      destruct (h (setText c node umbraKeySignature signature) w) as [[tx | e2] w1];
        simpl in *.
      * destruct Hr as [Hr | (tx' & Htx & Hr)]; [discriminate Hr |].
        injection Htx as <-.
        destruct (h (wait tx) w1) as [[u | e3] w2]; simpl in *;
          [discriminate Hr | by injection Hr as ->].
      * destruct Hr as [Hr | (tx' & Htx & _)];
          [by injection Hr as -> | discriminate Htx].
Qed.

(** C8 (as amended): every function issues at most one resolver read or
    write.  [getSignature], [getBytecode] and [getPublicKey] issue exactly
    one read, and no write, when the contract handle is built and the
    domain normalises, and no call at all otherwise; [setSignature] then
    issues exactly one write, and no read; [namehash] issues no call and
    leaves the world as it is.  The result of a read function is the
    answer of its read: it returns only once the call has been answered. *)
Theorem one_resolver_call_when_reached name provider signature w :
  let reached := if reaches_resolver name provider then 1 else 0 in
  (count_calls is_read (calls (run h (getSignature name provider) w)) = reached /\
   count_calls is_write (calls (run h (getSignature name provider) w)) = 0) /\
  (count_calls is_read (calls (run h (getBytecode name provider) w)) = reached /\
   count_calls is_write (calls (run h (getBytecode name provider) w)) = 0) /\
  (count_calls is_read (calls (run h (getPublicKey name provider) w)) = reached /\
   count_calls is_write (calls (run h (getPublicKey name provider) w)) = 0) /\
  (count_calls is_write (calls (run h (setSignature name provider signature) w)) = reached /\
   count_calls is_read (calls (run h (setSignature name provider signature) w)) = 0) /\
  run h (lift (namehash name)) w = mkResult (namehash name) w [] /\
  reached <= 1 /\
  (forall c node,
     createContract ENS_PUBLIC_RESOLVER publicResolverAbi provider = Ok c ->
     namehash name = Ok node ->
     outcome (run h (getSignature name provider) w)
       = (h (text c node umbraKeySignature) w).1 /\
     outcome (run h (getBytecode name provider) w)
       = (h (text c node umbraKeyBytecode) w).1).
Proof.
  simpl.
  pose proof (read_record_reads umbraKeySignature name provider w) as (Hsr & Hsw & Hsk).
  pose proof (read_record_reads umbraKeyBytecode name provider w) as (Hbr & Hbw & _).
  rewrite <- getSignature_run in Hsr, Hsw, Hsk. rewrite <- getBytecode_run in Hbr, Hbw.
  repeat split; try done.
  - rewrite getPublicKey_run. simpl.
    destruct (outcome (run h (getSignature name provider) w)) as [v | e]; [| done].
    destruct (truthy v); simpl; rewrite count_calls_app, Hsr; unfold count_calls; simpl; lia.
  - rewrite getPublicKey_run. simpl.
    destruct (outcome (run h (getSignature name provider) w)) as [v | e]; [| done].
    destruct (truthy v); simpl; rewrite count_calls_app, Hsw; unfold count_calls; simpl; lia.
  - rewrite setSignature_run. unfold reaches_resolver.
    destruct (createContract _ _ _) as [c | e]; [| done].
    destruct (namehash name) as [node | e]; [| done].
    simpl. destruct (h _ w) as [[tx | e] w1]; [| done].
    by destruct (h (wait tx) w1) as [[u | e] w2].
  - rewrite setSignature_run.
    destruct (createContract _ _ _) as [c | e]; [| done].
    destruct (namehash name) as [node | e]; [| done].
    simpl. destruct (h _ w) as [[tx | e] w1]; [| done].
    by destruct (h (wait tx) w1) as [[u | e] w2].
  - apply run_lift.
  - destruct (reaches_resolver name provider); lia.
  - rewrite getSignature_run. by rewrite (read_record_outcome _ _ _ _ c node).
  - rewrite getBytecode_run. by rewrite (read_record_outcome _ _ _ _ c node).
Qed.

(** C9: when the signature record of a domain reads as a falsy value
    (the empty string, say), [getSignature] returns that value unchanged,
    while [getPublicKey] returns [undefined] and never calls
    [getPublicKeyFromSignature]: its only call is the resolver read. *)
Theorem falsy_signature_is_absent_key name provider w c node v w' :
  createContract ENS_PUBLIC_RESOLVER publicResolverAbi provider = Ok c ->
  namehash name = Ok node ->
  h (text c node umbraKeySignature) w = (Ok v, w') ->
  truthy v = false ->
  truthy (VString "") = false /\
  outcome (run h (getSignature name provider) w) = Ok v /\
  outcome (run h (getPublicKey name provider) w) = Ok VUndefined /\
  count_calls is_recovery (calls (run h (getPublicKey name provider) w)) = 0 /\
  calls (run h (getPublicKey name provider) w) = [text c node umbraKeySignature].
Proof.
  intros Hc Hn Hr Hv.
  rewrite getPublicKey_run, getSignature_run.
  rewrite (read_record_outcome _ _ _ _ c node Hc Hn), Hr. simpl.
  by rewrite Hv.
Qed.

End EnsFacts.

(** * The functions of ens.ts against a resolver that stores text records *)

Section ResolverFacts.
Context `{Externals} {W : Type} (h : handler W).
Context (record : W -> Contract -> string -> string -> option string).
Context `{!ResolverStore h record}.

(** The records after [setSignature], whatever its outcome: only the
    signature record of the domain can have changed. *)
Lemma setSignature_records name provider signature w c n k :
  createContract ENS_PUBLIC_RESOLVER publicResolverAbi provider = Ok c ->
  k <> umbraKeySignature ->
  record (final (run h (setSignature name provider signature) w)) c n k = record w c n k.
Proof.
  intros Hc Hk. rewrite setSignature_run, Hc.
  destruct (namehash name) as [node | e]; [| done]. simpl.
  pose proof (setText_frame c node umbraKeySignature signature w n k) as Hframe.
  destruct (h (setText c node umbraKeySignature signature) w) as [[tx | e] w1];
    simpl in *.
  - pose proof (wait_frame tx w1 c n k) as Hwait.
    destruct (h (wait tx) w1) as [[u | e] w2]; simpl in *;
      rewrite Hwait; apply Hframe; congruence.
  - apply Hframe. congruence.
Qed.

(** C1: once [setSignature] has returned for a domain, a [getSignature]
    for the same domain on the resulting state that the resolver answers
    returns the signature that was set. *)
Theorem setSignature_then_getSignature name provider signature w txh :
  outcome (run h (setSignature name provider signature) w) = Ok txh ->
  (exists v,
     outcome (run h (getSignature name provider)
                (final (run h (setSignature name provider signature) w))) = Ok v) ->
  outcome (run h (getSignature name provider)
             (final (run h (setSignature name provider signature) w)))
    = Ok (VString signature).
Proof.
  rewrite setSignature_run.
  destruct (createContract _ _ _) as [c | e] eqn:Hc; [| discriminate].
  destruct (namehash name) as [node | e] eqn:Hn; [| discriminate]. simpl.
  destruct (h (setText c node umbraKeySignature signature) w) as [[tx | e] w1] eqn:Hw;
    [| discriminate].
  pose proof (wait_frame tx w1 c node umbraKeySignature) as Hwait.
  destruct (h (wait tx) w1) as [[u | e] w2]; [| discriminate]. simpl in *.
  intros _ [v Hv]. rewrite Hv. f_equal.
  rewrite getSignature_run, (read_record_outcome h _ _ _ _ c node Hc Hn) in Hv.
  apply text_answer in Hv. rewrite Hv, Hwait.
  by rewrite (setText_stores _ _ _ _ _ _ _ Hw).
Qed.

(** C3: for a domain that normalises and has no record under the key,
    on a resolver that answers its reads, [getSignature], [getBytecode]
    and [getPublicKey] return [undefined]; none of them raises. *)
Theorem no_record_is_absent name provider w c node :
  createContract ENS_PUBLIC_RESOLVER publicResolverAbi provider = Ok c ->
  namehash name = Ok node ->
  (forall key, exists v, (h (text c node key) w).1 = Ok v) ->
  (record w c node umbraKeySignature = None ->
   outcome (run h (getSignature name provider) w) = Ok VUndefined /\
   outcome (run h (getPublicKey name provider) w) = Ok VUndefined) /\
  (record w c node umbraKeyBytecode = None ->
   outcome (run h (getBytecode name provider) w) = Ok VUndefined).
Proof.
  intros Hc Hn Hans.
  assert (Hread : forall key, record w c node key = None ->
            outcome (read_record h key name provider w) = Ok VUndefined).
  { intros key Hnone. rewrite (read_record_outcome h _ _ _ _ c node Hc Hn). simpl.
    destruct (Hans key) as [v Hv]. etrans; [exact Hv |]. f_equal.
    apply text_answer in Hv. by rewrite Hv, Hnone. }
  split.
  - intros Hnone. rewrite getPublicKey_run. simpl.
    rewrite getSignature_run, (Hread _ Hnone). by simpl.
  - intros Hnone. rewrite getBytecode_run. by apply Hread.
Qed.

(** C10: [setSignature] leaves every bytecode record as it was, so a
    [getBytecode] that is answered before and after returns the same
    value; the only resolver key [setSignature] addresses is
    'vnd.umbra-v0-signature', never 'vnd.umbra-v0-bytecode'. *)
Theorem setSignature_keeps_bytecode name provider signature w name' :
  (forall c node,
     createContract ENS_PUBLIC_RESOLVER publicResolverAbi provider = Ok c ->
     record (final (run h (setSignature name provider signature) w)) c node umbraKeyBytecode
       = record w c node umbraKeyBytecode) /\
  (forall v v',
     outcome (run h (getBytecode name' provider) w) = Ok v ->
     outcome (run h (getBytecode name' provider)
                (final (run h (setSignature name provider signature) w))) = Ok v' ->
     v' = v) /\
  Forall (fun x => forall r node key,
            record_key x = Some (r, node, key) ->
            key = umbraKeySignature /\ key <> umbraKeyBytecode)
         (calls (run h (setSignature name provider signature) w)).
Proof.
  split; [| split].
  - intros c node Hc. by apply setSignature_records.
  - intros v v'. rewrite !getBytecode_run. unfold read_record.
    destruct (createContract _ _ _) as [c | e] eqn:Hc; [| discriminate].
    destruct (namehash name') as [node | e]; [| discriminate]. simpl.
    intros Hv Hv'. apply text_answer in Hv, Hv'.
    rewrite Hv, Hv'. f_equal. by apply setSignature_records.
  - eapply Forall_impl; [apply setSignature_calls_keyed |].
    intros x (c & node & _ & _ & [-> | [tx ->]]) r n k Hk; simpl in Hk; [| discriminate].
    injection Hk as <- <- <-. done.
Qed.

End ResolverFacts.

(** * [namehash] and letter case *)

Lemma lower_ascii_idem a : lower_ascii (lower_ascii a) = lower_ascii a.
Proof. destruct a as [[] [] [] [] [] [] [] []]; reflexivity. Qed.

Lemma lower_upper_ascii a : lower_ascii (upper_ascii a) = lower_ascii a.
Proof. destruct a as [[] [] [] [] [] [] [] []]; reflexivity. Qed.

Lemma asciiLowerCase_idem s : asciiLowerCase (asciiLowerCase s) = asciiLowerCase s.
Proof. induction s as [| a s IH]; simpl; [done |]. by rewrite lower_ascii_idem, IH. Qed.

Lemma asciiLowerCase_asciiUpperCase s : asciiLowerCase (asciiUpperCase s) = asciiLowerCase s.
Proof. induction s as [| a s IH]; simpl; [done |]. by rewrite lower_upper_ascii, IH. Qed.

Lemma ascii_only_toUpperCase s :
  ascii_only s = true -> toUpperCase s = Some (asciiUpperCase s).
Proof.
  induction s as [| a s IH]; simpl; [done |].
  intros [Ha Hs]%andb_prop. rewrite Ha. by rewrite (IH Hs).
Qed.

Lemma ascii_only_toLowerCase s :
  ascii_only s = true -> toLowerCase s = Some (asciiLowerCase s).
Proof.
  induction s as [| a s IH]; simpl; [done |].
  intros [Ha Hs]%andb_prop. rewrite Ha. by rewrite (IH Hs).
Qed.

Section CaseFacts.
Context `{Externals} `{!CaseNormalizing}.

(** C4 (as amended): [namehash] is a function of its argument, and it
    does not see the case of ASCII letters: two spellings of a domain
    that differ only in the case of the letters A-Z get the same
    identifier (or the same rejection).  In particular, for a domain made
    of ASCII characters, [toUpperCase] and [toLowerCase] are defined and
    [namehash] of the upper-cased name equals [namehash] of the
    lower-cased name. *)
Theorem namehash_ascii_case_normalizing :
  (forall s t, s = t -> namehash s = namehash t) /\
  (forall s t, same_domain s t -> namehash s = namehash t) /\
  (forall name, ascii_only name = true ->
     exists upper lower,
       toUpperCase name = Some upper /\
       toLowerCase name = Some lower /\
       namehash upper = namehash lower).
Proof.
  assert (Hsame : forall s t, same_domain s t -> namehash s = namehash t).
  { intros s t Hst. unfold namehash.
    by rewrite (normalize_case s), (normalize_case t), Hst. }
  split; [by intros s t -> |]. split; [exact Hsame |].
  intros name Hascii. exists (asciiUpperCase name), (asciiLowerCase name).
  split; [by apply ascii_only_toUpperCase |].
  split; [by apply ascii_only_toLowerCase |].
  apply Hsame. unfold same_domain.
  by rewrite asciiLowerCase_asciiUpperCase, asciiLowerCase_idem.
Qed.

End CaseFacts.

(** * The small resolver: laws, runs and counterexamples *)

Module ModelFacts.
Import Model.
#[local] Existing Instance Model.externals.

Lemma std3_char_lower a : std3_char (lower_ascii a) = std3_char a.
Proof. destruct a as [[] [] [] [] [] [] [] []]; reflexivity. Qed.

Lemma std3_asciiLowerCase s : std3 (asciiLowerCase s) = std3 s.
Proof. induction s as [| a s IH]; simpl; [done |]. by rewrite std3_char_lower, IH. Qed.

(** The stand-in normaliser does not see letter case. *)
Lemma normalize_case_normalizing : CaseNormalizing.
Proof.
  intros s. simpl. unfold normalize.
  by rewrite std3_asciiLowerCase, asciiLowerCase_idem.
Qed.

(** The small resolver stores text records as the spec describes. *)
Lemma transport_store : ResolverStore transport record.
Proof.
  split.
  - intros c node key w v. simpl. unfold record.
    destruct (online w); simpl; [| discriminate]. by intros [= <-].
  - intros c node key val w tx w'. simpl. unfold record.
    destruct (online w); [| discriminate]. intros [= _ <-]. simpl.
    apply lookup_insert_eq.
  - intros c node key val w n k Hne. simpl. unfold record.
    destruct (online w); simpl; [| done].
    apply lookup_insert_ne. congruence.
  - intros tx w c n k. simpl. by destruct (online w).
Qed.

(** ** Runs on the small resolver *)

Example namehash_mixed_case : namehash "Alice.ETH" = Ok "node:alice.eth".
Proof. reflexivity. Qed.

Example namehash_malformed : namehash "my name.eth" = Throw "Illegal char".
Proof. reflexivity. Qed.

Example setSignature_calls :
  calls (run transport (setSignature "alice.eth" provider "0x1234") genesis) =
  [setText "0xResolver" "node:alice.eth" "vnd.umbra-v0-signature" "0x1234"; wait "0xtx0"].
Proof. vm_compute. reflexivity. Qed.

Example getPublicKey_after_set :
  outcome (run transport (getPublicKey "alice.eth" provider)
             (final (run transport (setSignature "alice.eth" provider "0x1234") genesis)))
  = Ok (VString "pk:0x1234").
Proof. vm_compute. reflexivity. Qed.

Example getSignature_offline :
  outcome (run transport (getSignature "alice.eth" provider) (mkWorld ∅ false 0))
  = Throw "network error".
Proof. vm_compute. reflexivity. Qed.

(** C1, on the small resolver: set, then get. *)
Lemma setSignature_then_getSignature_witness :
  outcome (run transport (getSignature "alice.eth" provider)
             (final (run transport (setSignature "alice.eth" provider "0x1234") genesis)))
  = Ok (VString "0x1234").
Proof.
  apply (@setSignature_then_getSignature _ _ transport record transport_store
           "alice.eth" provider "0x1234" genesis "0xtx0").
  - vm_compute. reflexivity.
  - exists (VString "0x1234"). vm_compute. reflexivity.
Defined.

(** C2, as stated, fails for a signature record that is the empty string:
    [getPublicKey] returns [undefined] although [getSignature] does not
    (it returns the empty string). *)
Lemma getPublicKey_absent_iff_counterexample :
  ~ (outcome (run transport (getPublicKey "alice.eth" provider)
                (final (run transport (setSignature "alice.eth" provider "") genesis)))
       = Ok VUndefined <->
     outcome (run transport (getSignature "alice.eth" provider)
                (final (run transport (setSignature "alice.eth" provider "") genesis)))
       = Ok VUndefined).
Proof.
  intros [Hpk _].
  assert (Hsig : outcome (run transport (getSignature "alice.eth" provider)
                   (final (run transport (setSignature "alice.eth" provider "") genesis)))
                 = Ok (VString "")) by (vm_compute; reflexivity).
  rewrite Hsig in Hpk. discriminate Hpk. vm_compute. reflexivity.
Qed.

(** C3, on the small resolver: a domain nobody has written to. *)
Lemma no_record_is_absent_witness :
  outcome (run transport (getSignature "bob.eth" provider) genesis) = Ok VUndefined /\
  outcome (run transport (getPublicKey "bob.eth" provider) genesis) = Ok VUndefined /\
  outcome (run transport (getBytecode "bob.eth" provider) genesis) = Ok VUndefined.
Proof.
  destruct (@no_record_is_absent _ _ transport record transport_store
              "bob.eth" provider genesis "0xResolver" "node:bob.eth")
    as [Hsig Hcode].
  - reflexivity.
  - reflexivity.
  - intros key. eexists. reflexivity.
  - destruct Hsig as [Hs Hp]; [reflexivity |].
    split; [exact Hs |]. split; [exact Hp |]. apply Hcode. reflexivity.
Defined.

(** C4, on the stand-in normaliser, for a domain of ASCII characters. *)
Lemma namehash_ascii_case_normalizing_witness :
  exists upper lower,
    toUpperCase "Alice.Eth" = Some upper /\
    toLowerCase "Alice.Eth" = Some lower /\
    namehash upper = namehash lower.
Proof.
  destruct (@namehash_ascii_case_normalizing _ normalize_case_normalizing)
    as (_ & _ & Hcase).
  apply (Hcase "Alice.Eth"). reflexivity.
Defined.

Example toUpperCase_sharp_s : toUpperCase sharp_s_eth = Some "SS.ETH".
Proof. reflexivity. Qed.

Example toLowerCase_sharp_s : toLowerCase sharp_s_eth = Some sharp_s_eth.
Proof. reflexivity. Qed.

(** C4, as stated, fails for the domain of sharp s: its upper-casing is
    SS.ETH, which normalises to ss.eth, while its lower-casing is the
    name itself, which normalisation keeps; the two identifiers differ. *)
Lemma upper_lower_identifier_counterexample :
  ~ (forall name upper lower,
       toUpperCase name = Some upper ->
       toLowerCase name = Some lower ->
       namehash upper = namehash lower).
Proof.
  intros Hclaim.
  specialize (Hclaim sharp_s_eth "SS.ETH" sharp_s_eth eq_refl eq_refl).
  vm_compute in Hclaim. discriminate Hclaim.
Qed.

(** C6, on the small resolver. *)
Lemma setSignature_returns_hash_witness :
  run transport (setSignature "alice.eth" provider "0x1234") genesis =
  mkResult (Ok "0xtx0")
    (mkWorld (<[("0xResolver", "node:alice.eth", "vnd.umbra-v0-signature") := "0x1234"]> ∅)
       true 1)
    [setText "0xResolver" "node:alice.eth" "vnd.umbra-v0-signature" "0x1234"; wait "0xtx0"].
Proof.
  destruct (@setSignature_returns_hash _ _ transport "alice.eth" provider "0x1234" genesis
              "0xResolver" "node:alice.eth" "0xtx0"
              (mkWorld (<[("0xResolver", "node:alice.eth", "vnd.umbra-v0-signature")
                           := "0x1234"]> ∅) true 1))
    as (Hret & _ & _).
  - reflexivity.
  - reflexivity.
  - reflexivity.
  - apply Hret. reflexivity.
Defined.

(** C8, as stated, fails for a malformed domain: [namehash] raises before
    [text] is called, so [getSignature] issues no resolver read. *)
Lemma exactly_one_read_counterexample :
  ~ (count_calls is_read
       (calls (run transport (getSignature "my name.eth" provider) genesis)) = 1).
Proof. vm_compute. discriminate. Qed.

(** C9, on the small resolver, for a record that is the empty string. *)
Lemma falsy_signature_is_absent_key_witness :
  outcome (run transport (getSignature "alice.eth" provider) with_empty_signature)
    = Ok (VString "") /\
  outcome (run transport (getPublicKey "alice.eth" provider) with_empty_signature)
    = Ok VUndefined /\
  count_calls is_recovery
    (calls (run transport (getPublicKey "alice.eth" provider) with_empty_signature)) = 0.
Proof.
  destruct (@falsy_signature_is_absent_key _ _ transport "alice.eth" provider
              with_empty_signature "0xResolver" "node:alice.eth" (VString "")
              with_empty_signature)
    as (_ & Hs & Hp & Hk & _).
  - reflexivity.
  - reflexivity.
  - vm_compute. reflexivity.
  - reflexivity.
  - by split.
Defined.

(** C10, on the small resolver, for a domain with a bytecode record. *)
Lemma setSignature_keeps_bytecode_witness :
  record (final (run transport (setSignature "alice.eth" provider "0x1234") with_bytecode))
    "0xResolver" "node:alice.eth" umbraKeyBytecode
  = Some "0x6080".
Proof.
  destruct (@setSignature_keeps_bytecode _ _ transport record transport_store
              "alice.eth" provider "0x1234" with_bytecode "alice.eth")
    as (Hrecord & _ & _).
  rewrite (Hrecord "0xResolver" "node:alice.eth").
  - reflexivity.
  - reflexivity.
Defined.

Example getBytecode_after_setSignature :
  outcome (run transport (getBytecode "alice.eth" provider)
             (final (run transport (setSignature "alice.eth" provider "0x1234")
                       with_bytecode)))
  = Ok (VString "0x6080").
Proof. vm_compute. reflexivity. Qed.

End ModelFacts.

(** * Further facts: how the functions compose *)

Section ComposeFacts.
Context `{Externals} {W : Type} (h : handler W).

(** The functions see the domain and the provider only through
    [namehash(name)] and the contract handle [createContract] builds:
    two calls that agree on both give the same result, the same final
    state and the same calls. *)
Theorem same_identifier_same_run name name' provider provider' signature w :
  namehash name = namehash name' ->
  createContract ENS_PUBLIC_RESOLVER publicResolverAbi provider
    = createContract ENS_PUBLIC_RESOLVER publicResolverAbi provider' ->
  run h (getSignature name provider) w = run h (getSignature name' provider') w /\
  run h (getBytecode name provider) w = run h (getBytecode name' provider') w /\
  run h (getPublicKey name provider) w = run h (getPublicKey name' provider') w /\
  run h (setSignature name provider signature) w
    = run h (setSignature name' provider' signature) w.
Proof.
  intros Hn Hc.
  assert (Hread : forall key,
            read_record h key name provider w = read_record h key name' provider' w).
  { intros key. unfold read_record. by rewrite Hn, Hc. }
  repeat split.
  - by rewrite !getSignature_run.
  - by rewrite !getBytecode_run.
  - by rewrite !getPublicKey_run, !getSignature_run, Hread.
  - by rewrite !setSignature_run, Hn, Hc.
Qed.

(** A write the resolver rejects ends [setSignature] at once: it raises
    the error of the write, its only call is that write, and it never
    waits for a transaction. *)
Theorem setSignature_rejected_write name provider signature w c node e w1 :
  createContract ENS_PUBLIC_RESOLVER publicResolverAbi provider = Ok c ->
  namehash name = Ok node ->
  h (setText c node umbraKeySignature signature) w = (Throw e, w1) ->
  run h (setSignature name provider signature) w =
    mkResult (Throw e) w1 [setText c node umbraKeySignature signature].
Proof.
  intros Hc Hn Hw. rewrite setSignature_run, Hc, Hn. simpl. by rewrite Hw.
Qed.

(** When the signature read answers a truthy value, [getPublicKey] calls
    [getPublicKeyFromSignature] once, after the read, with exactly the
    value read, on the state the read left; its result and final state
    are those of the helper. *)
Theorem getPublicKey_recovers_read_value name provider w c node v w' :
  createContract ENS_PUBLIC_RESOLVER publicResolverAbi provider = Ok c ->
  namehash name = Ok node ->
  h (text c node umbraKeySignature) w = (Ok v, w') ->
  truthy v = true ->
  run h (getPublicKey name provider) w =
    mkResult (h (getPublicKeyFromSignature v) w').1
             (h (getPublicKeyFromSignature v) w').2
             [text c node umbraKeySignature; getPublicKeyFromSignature v].
Proof.
  intros Hc Hn Hr Hv.
  rewrite getPublicKey_run, getSignature_run.
  rewrite (read_record_outcome h _ _ _ _ c node Hc Hn), Hr. simpl.
  by rewrite Hv.
Qed.


End ComposeFacts.

Section StoreComposeFacts.
Context `{Externals} {W : Type} (h : handler W).
Context (record : W -> Contract -> string -> string -> option string).
Context `{!ResolverStore h record}.

(** After [setSignature] has returned, the signature record of the
    domain holds the signature. *)
Lemma setSignature_record name provider signature w txh c node :
  createContract ENS_PUBLIC_RESOLVER publicResolverAbi provider = Ok c ->
  namehash name = Ok node ->
  outcome (run h (setSignature name provider signature) w) = Ok txh ->
  record (final (run h (setSignature name provider signature) w)) c node umbraKeySignature
    = Some signature.
Proof.
  intros Hc Hn. rewrite setSignature_run, Hc, Hn. simpl.
  destruct (h (setText c node umbraKeySignature signature) w) as [[tx | e] w1] eqn:Hw;
    [| discriminate].
  pose proof (wait_frame tx w1 c node umbraKeySignature) as Hwait.
  destruct (h (wait tx) w1) as [[u | e] w2]; [| discriminate]. simpl in *.
  intros _. rewrite Hwait. by apply (setText_stores _ _ _ _ _ _ _ Hw).
Qed.

(** Reading back under any name with the same identifier. *)
Lemma setSignature_read_back name name' provider signature w txh :
  namehash name' = namehash name ->
  outcome (run h (setSignature name provider signature) w) = Ok txh ->
  (exists v,
     outcome (run h (getSignature name' provider)
                (final (run h (setSignature name provider signature) w))) = Ok v) ->
  outcome (run h (getSignature name' provider)
             (final (run h (setSignature name provider signature) w)))
    = Ok (VString signature).
Proof.
  intros Hsame Hset [v Hv].
  destruct (createContract ENS_PUBLIC_RESOLVER publicResolverAbi provider)
    as [c | e] eqn:Hc.
  2:{ rewrite setSignature_run, Hc in Hset. discriminate Hset. }
  destruct (namehash name) as [node | e] eqn:Hn.
  2:{ rewrite setSignature_run, Hc, Hn in Hset. discriminate Hset. }
  pose proof (setSignature_record name provider signature w txh c node Hc Hn Hset)
    as Hrec.
  rewrite Hv. f_equal.
  rewrite getSignature_run, (read_record_outcome h _ _ _ _ c node Hc Hsame) in Hv.
  apply text_answer in Hv. by rewrite Hv, Hrec.
Qed.

(** The records [setSignature] for the identifier [node] leaves alone:
    all but the signature record of [node]. *)
Lemma setSignature_records_other name provider signature w c node n k :
  createContract ENS_PUBLIC_RESOLVER publicResolverAbi provider = Ok c ->
  namehash name = Ok node ->
  (n, k) <> (node, umbraKeySignature) ->
  record (final (run h (setSignature name provider signature) w)) c n k = record w c n k.
Proof.
  intros Hc Hn Hne. rewrite setSignature_run, Hc, Hn. simpl.
  pose proof (setText_frame c node umbraKeySignature signature w n k Hne) as Hframe.
  destruct (h (setText c node umbraKeySignature signature) w) as [[tx | e] w1];
    simpl in *; [| exact Hframe].
  pose proof (wait_frame tx w1 c n k) as Hwait.
  destruct (h (wait tx) w1) as [[u | e] w2]; simpl in *; by rewrite Hwait.
Qed.

(** [setSignature] for one domain leaves the signature of every domain
    with another identifier as it was: the record is unchanged, and a
    [getSignature] for that domain that is answered before and after
    returns the same value. *)
Theorem setSignature_other_domain_untouched name name' provider signature w c node node' :
  createContract ENS_PUBLIC_RESOLVER publicResolverAbi provider = Ok c ->
  namehash name = Ok node ->
  namehash name' = Ok node' ->
  node' <> node ->
  record (final (run h (setSignature name provider signature) w)) c node' umbraKeySignature
    = record w c node' umbraKeySignature /\
  (forall v v',
     outcome (run h (getSignature name' provider) w) = Ok v ->
     outcome (run h (getSignature name' provider)
                (final (run h (setSignature name provider signature) w))) = Ok v' ->
     v' = v).
Proof.
  intros Hc Hn Hn' Hne.
  assert (Hrec : record (final (run h (setSignature name provider signature) w))
                   c node' umbraKeySignature = record w c node' umbraKeySignature).
  { apply setSignature_records_other with (node := node); [done | done |].
    intros [= Heq]. by apply Hne. }
  split; [exact Hrec |].
  intros v v'. rewrite !getSignature_run.
  rewrite !(read_record_outcome h _ _ _ _ c node' Hc Hn'). simpl.
  intros Hv Hv'. apply text_answer in Hv, Hv'. by rewrite Hv, Hv', Hrec.
Qed.

(** Publishing and resolving: once [setSignature] has returned, a
    [getPublicKey] for the same domain whose read is answered returns
    what [getPublicKeyFromSignature] makes of the published signature;
    for the empty signature it returns [undefined] instead. *)
Theorem setSignature_then_getPublicKey name provider signature w txh :
  outcome (run h (setSignature name provider signature) w) = Ok txh ->
  (exists v,
     outcome (run h (getSignature name provider)
                (final (run h (setSignature name provider signature) w))) = Ok v) ->
  outcome (run h (getPublicKey name provider)
             (final (run h (setSignature name provider signature) w))) =
  if String.eqb signature ""
  then Ok VUndefined
  else (h (getPublicKeyFromSignature (VString signature))
          (final (run h (getSignature name provider)
                    (final (run h (setSignature name provider signature) w))))).1.
Proof.
  intros Hset Hans.
  pose proof (setSignature_read_back name name provider signature w txh eq_refl Hset Hans)
    as Hsig.
  rewrite getPublicKey_run. simpl. rewrite Hsig. simpl.
  by destruct (String.eqb signature "").
Qed.

Context `{!CaseNormalizing}.



End StoreComposeFacts.

(** ** The same facts on the small resolver *)

Module ComposeModelFacts.
Import Model.
#[local] Existing Instance Model.externals.

(** Two spellings with one identifier give one run. *)
Lemma same_identifier_same_run_witness :
  run transport (getPublicKey "Alice.ETH" provider) with_bytecode
  = run transport (getPublicKey "alice.eth" provider) with_bytecode.
Proof.
  destruct (@same_identifier_same_run _ _ transport "Alice.ETH" "alice.eth"
              provider provider "0x1234" with_bytecode)
    as (_ & _ & Hkey & _).
  - reflexivity.
  - reflexivity.
  - exact Hkey.
Defined.

(** A write sent while the node is unreachable. *)
Lemma setSignature_rejected_write_witness :
  run transport (setSignature "alice.eth" provider "0x1234") (mkWorld ∅ false 0)
  = mkResult (Throw "network error") (mkWorld ∅ false 0)
      [setText "0xResolver" "node:alice.eth" "vnd.umbra-v0-signature" "0x1234"].
Proof.
  apply (@setSignature_rejected_write _ _ transport "alice.eth" provider "0x1234"
           (mkWorld ∅ false 0) "0xResolver" "node:alice.eth").
  - reflexivity.
  - reflexivity.
  - reflexivity.
Defined.

(** Resolving a domain whose signature record is 0x1234. *)
Lemma getPublicKey_recovers_read_value_witness :
  run transport (getPublicKey "alice.eth" provider) with_signature
  = mkResult (Ok (VString "pk:0x1234")) with_signature
      [text "0xResolver" "node:alice.eth" "vnd.umbra-v0-signature";
       getPublicKeyFromSignature (VString "0x1234")].
Proof.
  apply (@getPublicKey_recovers_read_value _ _ transport "alice.eth" provider
           with_signature "0xResolver" "node:alice.eth" (VString "0x1234") with_signature).
  - reflexivity.
  - reflexivity.
  - vm_compute. reflexivity.
  - reflexivity.
Defined.

(** Publishing for bob.eth leaves the signature of alice.eth. *)
Lemma setSignature_other_domain_untouched_witness :
  record (final (run transport (setSignature "bob.eth" provider "0xbeef") with_signature))
    "0xResolver" "node:alice.eth" umbraKeySignature
  = Some "0x1234".
Proof.
  destruct (@setSignature_other_domain_untouched _ _ transport record ModelFacts.transport_store
              "bob.eth" "alice.eth" provider "0xbeef" with_signature
              "0xResolver" "node:bob.eth" "node:alice.eth")
    as [Hrecord _].
  - reflexivity.
  - reflexivity.
  - reflexivity.
  - discriminate.
  - rewrite Hrecord. reflexivity.
Defined.

(** Publishing 0x1234 for alice.eth, then resolving alice.eth. *)
Lemma setSignature_then_getPublicKey_witness :
  outcome (run transport (getPublicKey "alice.eth" provider)
             (final (run transport (setSignature "alice.eth" provider "0x1234") genesis)))
  = Ok (VString "pk:0x1234").
Proof.
  rewrite (@setSignature_then_getPublicKey _ _ transport record ModelFacts.transport_store
             "alice.eth" provider "0x1234" genesis "0xtx0").
  - vm_compute. reflexivity.
  - vm_compute. reflexivity.
  - exists (VString "0x1234"). vm_compute. reflexivity.
Defined.


End ComposeModelFacts.
